(** * Type checking of simple Java expressions

    A shallow embedding of [java_type_checker/expressions.py]: the
    expression tree ([Variable], [Literal], [NullLiteral], [MethodCall],
    [ConstructorCall]), its two operations [static_type] and [check_types],
    and the shared routine [typecheck_arguments_function_call].

    Python exceptions are the failure channel of the source; here every
    operation that can raise returns a [Result], and sequencing is the bind
    of the corresponding error monad. *)

From Stdlib Require Import String List Bool Arith DecimalString.
Import ListNotations.
Open Scope string_scope.

(** ** Exceptions and the error monad *)

(** The exception classes an expression can raise: [NoSuchMethod] (imported
    from the type model), [JavaTypeError] (declared in expressions.py), and
    anything else the type model raises while resolving a method or a
    constructor, kept apart as [ResolutionFailure]. *)
Inductive Exn : Type :=
| NoSuchMethod (msg : string)
| JavaTypeError (msg : string)
| ResolutionFailure (msg : string).

Inductive Result (A : Type) : Type :=
| Ok (a : A)
| Raise (e : Exn).

Arguments Ok {A} a.
Arguments Raise {A} e.

Definition bind {A B : Type} (r : Result A) (k : A -> Result B) : Result B :=
  match r with
  | Ok a => k a
  | Raise e => Raise e
  end.

Notation "x <- r ;; k" := (bind r (fun x => k))
  (at level 61, r at next level, right associativity).
Notation "r ;;; k" := (bind r (fun _ => k))
  (at level 61, right associativity).

(** [for x in xs: f(x)] where [f] may raise: the first exception leaves the
    loop. *)
Definition for_each {A : Type} (f : A -> Result unit) : list A -> Result unit :=
  fix go (xs : list A) : Result unit :=
    match xs with
    | [] => Ok tt
    | x :: xs' => f x ;;; go xs'
    end.

(** [[f(x) for x in xs]] where [f] may raise. *)
Definition comprehension {A B : Type} (f : A -> Result B) : list A -> Result (list B) :=
  fix go (xs : list A) : Result (list B) :=
    match xs with
    | [] => Ok []
    | x :: xs' => y <- f x ;; ys <- go xs' ;; Ok (y :: ys)
    end.

(** [str(n)] as [str.format] prints an [int]. *)
Definition str_of_int (n : nat) : string :=
  NilEmpty.string_of_uint (Nat.to_uint n).

(** [", ".join(xs)] *)
Definition join (xs : list string) : string := String.concat ", " xs.

(** ** The type model *)

(** Modelled from the spec: the signature of a method, as the module [types]
    of the package hands it to expressions.py: an ordered sequence of
    parameter types and a return type. *)
Record MethodSignature (Ty : Type) : Type := {
  argument_types : list Ty;
  return_type : Ty
}.

(** Modelled from the spec: the signature of a constructor, an ordered
    sequence of parameter types ([argument_types] in the source, which
    reads both kinds of signature through the same attribute). *)
Record ConstructorSignature (Ty : Type) : Type := {
  constructor_argument_types : list Ty
}.

Arguments argument_types {Ty} _.
Arguments return_type {Ty} _.
Arguments constructor_argument_types {Ty} _.

(** Modelled from the spec: the capabilities of the module [types] that
    expressions.py consumes (section 6 of the specification), taken as the
    fields of an interface.  [==] on types is object identity, hence
    decidable; [method_named] and the [constructor] attribute may raise. *)
Class TypeModel (Ty : Type) : Type := {
  ty_eq_dec : forall a b : Ty, {a = b} + {a <> b};
  name : Ty -> string;
  null : Ty;
  object : Ty;
  is_subtype_of : Ty -> Ty -> bool;
  method_named : Ty -> string -> Result (MethodSignature Ty);
  constructor : Ty -> Result (ConstructorSignature Ty)
}.

(** ** Expressions *)

Section Expressions.

Context {Ty : Type} {TM : TypeModel Ty}.

#[warnings="-register-all"]
Inductive Expression : Type :=
| Variable_ (var_name : string) (declared_type : Ty)
| Literal (value : string) (type : Ty)
| NullLiteral
| MethodCall (receiver : Expression) (method_name : string) (args : list Expression)
| ConstructorCall (instantiated_type : Ty) (args : list Expression).

(** The attributes [value] and [type] that [Literal.__init__] sets;
    [NullLiteral.__init__] calls it with ["null"] and [Type.null]. *)
Definition literal_value (e : Expression) : option string :=
  match e with
  | Literal v _ => Some v
  | NullLiteral => Some "null"
  | _ => None
  end.

Definition literal_type (e : Expression) : option Ty :=
  match e with
  | Literal _ t => Some t
  | NullLiteral => Some null
  | _ => None
  end.

Fixpoint static_type (e : Expression) : Result Ty :=
  match e with
  | Variable_ _ declared_type => Ok declared_type
  | Literal _ type => Ok type
  | NullLiteral => Ok null
  | MethodCall receiver method_name _ =>
      T <- static_type receiver ;;
      method <- method_named T method_name ;;
      Ok (return_type method)
  | ConstructorCall instantiated_type _ => Ok instantiated_type
  end.

Fixpoint typecheck_arguments_function_call
    (args : list Expression) (types : list Ty) : Result bool :=
  match args, types with
  | arg :: args', type :: types' =>
      T <- static_type arg ;;
      if negb (is_subtype_of T type) then
        T' <- static_type arg ;;
        if (if ty_eq_dec T' null then true else false) && is_subtype_of type object
        then typecheck_arguments_function_call args' types'
        else Ok false
      else typecheck_arguments_function_call args' types'
  | _, _ => Ok true
  end.

(** The messages built with [str.format] and [+]. *)
Definition msg_null_receiver (method_name : string) (T : Ty) : string :=
  "Cannot invoke method " ++ method_name ++ "() on " ++ name T.

Definition msg_method_wrong_number
    (T : Ty) (method_name : string) (expected got : nat) : string :=
  "Wrong number of arguments for " ++ name T ++ "." ++ method_name
    ++ "(): expected " ++ str_of_int expected ++ ", got " ++ str_of_int got.

Definition msg_method_mismatch
    (T : Ty) (method_name : string) (expected received : list string) : string :=
  name T ++ "." ++ method_name ++ "() expects arguments of type ("
    ++ join expected ++ "), but got (" ++ join received ++ ")".

Definition msg_no_methods (T : Ty) : string :=
  "Type " ++ name T ++ " does not have methods".

Definition msg_not_instantiable (T : Ty) : string :=
  "Type " ++ name T ++ " is not instantiable".

Definition msg_constructor_wrong_number (T : Ty) (expected got : nat) : string :=
  "Wrong number of arguments for " ++ name T
    ++ " constructor: expected " ++ str_of_int expected ++ ", got " ++ str_of_int got.

Definition msg_constructor_mismatch
    (T : Ty) (expected received : list string) : string :=
  name T ++ " constructor expects arguments of type ("
    ++ join expected ++ "), but got (" ++ join received ++ ")".

(** [[receivedArg.static_type().name for receivedArg in self.args]] *)
Definition received_arguments (args : list Expression) : Result (list string) :=
  comprehension (fun receivedArg => T <- static_type receivedArg ;; Ok (name T)) args.

Fixpoint check_types (e : Expression) : Result unit :=
  match e with
  | Variable_ _ _ => Ok tt
  | Literal _ _ => Ok tt
  | NullLiteral => Ok tt
  | MethodCall receiver method_name args =>
      for_each check_types args ;;;
      T <- static_type receiver ;;
      if ty_eq_dec T null then
        Raise (NoSuchMethod (msg_null_receiver method_name T))
      else if is_subtype_of T object then
        method <- method_named T method_name ;;
        if negb (length args =? length (argument_types method))%nat then
          Raise (JavaTypeError
                   (msg_method_wrong_number T method_name
                      (length (argument_types method)) (length args)))
        else
          ok <- typecheck_arguments_function_call args (argument_types method) ;;
          if negb ok then
            received <- received_arguments args ;;
            Raise (JavaTypeError
                     (msg_method_mismatch T method_name
                        (map name (argument_types method)) received))
          else Ok tt
      else Raise (JavaTypeError (msg_no_methods T))
  | ConstructorCall instantiated_type args =>
      for_each check_types args ;;;
      if negb (is_subtype_of instantiated_type object) then
        Raise (JavaTypeError (msg_not_instantiable instantiated_type))
      else
        method <- constructor instantiated_type ;;
        if negb (length args =? length (constructor_argument_types method))%nat then
          Raise (JavaTypeError
                   (msg_constructor_wrong_number instantiated_type
                      (length (constructor_argument_types method)) (length args)))
        else
          ok <- typecheck_arguments_function_call args (constructor_argument_types method) ;;
          if negb ok then
            received <- received_arguments args ;;
            Raise (JavaTypeError
                     (msg_constructor_mismatch instantiated_type
                        (map name (constructor_argument_types method)) received))
          else Ok tt
  end.

(** [names], the helper for formatting error messages. *)
Definition names (named_things : list Ty) : string :=
  "(" ++ join (map name named_things) ++ ")".

(** *** Induction over the tree, through the argument tuples *)

Section ExpressionInduction.

Variable P : Expression -> Prop.
Hypothesis P_Variable : forall x t, P (Variable_ x t).
Hypothesis P_Literal : forall v t, P (Literal v t).
Hypothesis P_NullLiteral : P NullLiteral.
Hypothesis P_MethodCall :
  forall r m args, P r -> Forall P args -> P (MethodCall r m args).
Hypothesis P_ConstructorCall :
  forall t args, Forall P args -> P (ConstructorCall t args).

Fixpoint Expression_tree_ind (e : Expression) : P e :=
  let fix over_args (l : list Expression) : Forall P l :=
    match l with
    | [] => Forall_nil P
    | a :: l' => Forall_cons a (Expression_tree_ind a) (over_args l')
    end in
  match e with
  | Variable_ x t => P_Variable x t
  | Literal v t => P_Literal v t
  | NullLiteral => P_NullLiteral
  | MethodCall r m args =>
      P_MethodCall r m args (Expression_tree_ind r) (over_args args)
  | ConstructorCall t args => P_ConstructorCall t args (over_args args)
  end.

End ExpressionInduction.

End Expressions.

Arguments Expression Ty : clear implicits.

(** ** The rule of one argument position, in the words of the specification

    An argument [a] is compatible with the expected type [p] when the static
    type of [a] is a subtype of [p], or when it is [Type.null] and [p] is a
    subtype of [Type.object]. *)
Definition compatible_spec {Ty : Type} {TM : TypeModel Ty}
    (a : Expression Ty) (p : Ty) : Prop :=
  exists T, static_type a = Ok T /\
    (is_subtype_of T p = true \/ (T = null /\ is_subtype_of p object = true)).

(** The test of one position, as the body of the loop of
    [typecheck_arguments_function_call] evaluates it on the static type [T]
    of the argument. *)
Definition position_ok {Ty : Type} {TM : TypeModel Ty} (T type : Ty) : bool :=
  is_subtype_of T type
  || ((if ty_eq_dec T null then true else false) && is_subtype_of type object).

(** The same type model with another table of constructors. *)
Definition with_constructor {Ty : Type} (TM : TypeModel Ty)
    (constructor' : Ty -> Result (ConstructorSignature Ty)) : TypeModel Ty :=
  {| ty_eq_dec := ty_eq_dec;
     name := name;
     null := null;
     object := object;
     is_subtype_of := is_subtype_of;
     method_named := method_named;
     constructor := constructor' |}.

(** ** Positions in a tree, along the argument tuples

    One step down from a call to one of its arguments: the call, and the
    arguments to the left and to the right of the position. *)
Inductive Frame (Ty : Type) : Type :=
| InMethodCall (receiver : Expression Ty) (method_name : string)
    (before after : list (Expression Ty))
| InConstructorCall (instantiated_type : Ty)
    (before after : list (Expression Ty)).

Arguments InMethodCall {Ty} receiver method_name before after.
Arguments InConstructorCall {Ty} instantiated_type before after.

Definition left_siblings {Ty : Type} (f : Frame Ty) : list (Expression Ty) :=
  match f with
  | InMethodCall _ _ before _ => before
  | InConstructorCall _ before _ => before
  end.

Definition fill {Ty : Type} (f : Frame Ty) (e : Expression Ty) : Expression Ty :=
  match f with
  | InMethodCall receiver method_name before after =>
      MethodCall receiver method_name (before ++ e :: after)%list
  | InConstructorCall instantiated_type before after =>
      ConstructorCall instantiated_type (before ++ e :: after)%list
  end.

(** The tree with [e] at the end of [path], the outermost call first. *)
Definition plug {Ty : Type} (path : list (Frame Ty)) (e : Expression Ty)
    : Expression Ty :=
  fold_right fill e path.

(** ** Exceptions that come out of the type model *)
Definition raised_by_model {Ty : Type} {TM : TypeModel Ty} (err : Exn) : Prop :=
  (exists T m, method_named T m = Raise err) \/
  (exists T, constructor T = Raise err).

(** ** The tree without its texts

    The names of the variables and the texts of the literals blanked, and
    the [NullLiteral] written as a [Literal] of type [Type.null]. *)
Fixpoint without_texts {Ty : Type} {TM : TypeModel Ty} (e : Expression Ty)
    : Expression Ty :=
  match e with
  | Variable_ _ declared_type => Variable_ "" declared_type
  | Literal _ type => Literal "" type
  | NullLiteral => Literal "" null
  | MethodCall receiver method_name args =>
      MethodCall (without_texts receiver) method_name (map without_texts args)
  | ConstructorCall instantiated_type args =>
      ConstructorCall instantiated_type (map without_texts args)
  end.

(** ** A small type model

    The primitive types, the null type and [Object], with the two classes
    of the examples of the specification: [Foo], with a method
    [bar(int) -> void] and a constructor without parameters, and [String],
    whose constructor expects one parameter of type [Object]. *)

Module Sample.

Inductive JavaType : Type :=
| Tvoid | Tboolean | Tint | Tdouble | Tnull | Tobject | Tstring | Tfoo.

Definition JavaType_eq_dec (a b : JavaType) : {a = b} + {a <> b}.
Proof. decide equality. Defined.

Definition type_name (t : JavaType) : string :=
  match t with
  | Tvoid => "void"
  | Tboolean => "boolean"
  | Tint => "int"
  | Tdouble => "double"
  | Tnull => "null"
  | Tobject => "Object"
  | Tstring => "String"
  | Tfoo => "Foo"
  end.

Definition direct_supertypes (t : JavaType) : list JavaType :=
  match t with
  | Tstring | Tfoo => [Tobject]
  | _ => []
  end.

Definition is_class (t : JavaType) : bool :=
  match t with
  | Tobject | Tstring | Tfoo => true
  | _ => false
  end.

(** Modelled from the spec: the subtype relation is a partial order, here
    the reflexive and transitive closure of [direct_supertypes], followed
    up to [depth] steps. *)
Fixpoint subtype_within (depth : nat) (a b : JavaType) : bool :=
  if JavaType_eq_dec a b then true
  else match depth with
       | O => false
       | S d => existsb (fun s => subtype_within d s b) (direct_supertypes a)
       end.

Definition declared_methods (t : JavaType) : list (string * MethodSignature JavaType) :=
  match t with
  | Tobject =>
      [ ("equals", {| argument_types := [Tobject]; return_type := Tboolean |});
        ("hashCode", {| argument_types := []; return_type := Tint |}) ]
  | Tstring => [ ("length", {| argument_types := []; return_type := Tint |}) ]
  | Tfoo => [ ("bar", {| argument_types := [Tint]; return_type := Tvoid |}) ]
  | _ => []
  end.

Definition own_method (t : JavaType) (n : string) : option (MethodSignature JavaType) :=
  option_map snd (find (fun entry => String.eqb (fst entry) n) (declared_methods t)).

Fixpoint method_within (depth : nat) (t : JavaType) (n : string)
    : option (MethodSignature JavaType) :=
  match own_method t n with
  | Some m => Some m
  | None =>
      match depth with
      | O => None
      | S d =>
          fold_right
            (fun s found =>
               match method_within d s n with Some m => Some m | None => found end)
            None (direct_supertypes t)
      end
  end.

(** Modelled from the spec: resolution of a method by name, which fails
    when the type has no method of that name. *)
Definition sample_method_named (t : JavaType) (n : string)
    : Result (MethodSignature JavaType) :=
  if is_class t then
    match method_within 2 t n with
    | Some m => Ok m
    | None => Raise (NoSuchMethod (type_name t ++ " has no method named " ++ n))
    end
  else Raise (ResolutionFailure (type_name t ++ " has no methods")).

(** Modelled from the spec: a type of the object category has exactly one
    constructor. *)
Definition sample_constructor (t : JavaType) : Result (ConstructorSignature JavaType) :=
  match t with
  | Tobject | Tfoo => Ok {| constructor_argument_types := [] |}
  | Tstring => Ok {| constructor_argument_types := [Tobject] |}
  | _ => Raise (ResolutionFailure (type_name t ++ " has no constructor"))
  end.

#[global] Instance model : TypeModel JavaType :=
  {| ty_eq_dec := JavaType_eq_dec;
     name := type_name;
     null := Tnull;
     object := Tobject;
     is_subtype_of := subtype_within 2;
     method_named := sample_method_named;
     constructor := sample_constructor |}.

(** Expressions over the sample model. *)

(** [foo], a variable of type [Foo]. *)
Definition foo : Expression JavaType := Variable_ "foo" Tfoo.

(** [x], a variable of type [int]. *)
Definition x_int : Expression JavaType := Variable_ "x" Tint.

(** [null], the literal. *)
Definition null_literal : Expression JavaType := NullLiteral.

(** [1], a literal of type [int]. *)
Definition one : Expression JavaType := Literal "1" Tint.

(** [new int()]: its own check raises "Type int is not instantiable". *)
Definition new_int : Expression JavaType := ConstructorCall Tint [].

(** [null.toString()]: its own check raises [NoSuchMethod]. *)
Definition null_toString : Expression JavaType := MethodCall NullLiteral "toString" [].

(** [new Foo(1)], although the constructor of [Foo] has no parameter. *)
Definition new_Foo_1 : Expression JavaType := ConstructorCall Tfoo [one].

End Sample.

(** * Properties *)

Lemma append_assoc (s1 s2 s3 : string) : (s1 ++ s2) ++ s3 = s1 ++ (s2 ++ s3).
Proof.
  induction s1 as [|c s1 IH]; simpl; [reflexivity|].
  rewrite IH. reflexivity.
Qed.

Section Properties.

Context {Ty : Type} {TM : TypeModel Ty}.

Implicit Types (e r arg : Expression Ty) (args : list (Expression Ty))
               (T type : Ty) (types : list Ty).

(** ** The loop over the arguments *)

Lemma for_each_Ok {A : Type} (f : A -> Result unit) (xs : list A) :
  for_each f xs = Ok tt <-> Forall (fun x => f x = Ok tt) xs.
Proof.
  induction xs as [|x xs IH]; simpl.
  - split; auto.
  - destruct (f x) as [[]|err] eqn:Hx; simpl.
    + rewrite IH. split; intros H.
      * constructor; assumption.
      * inversion H; assumption.
    + split; intros H; [discriminate|].
      inversion H; subst. congruence.
Qed.

(** The first element on which the body raises decides the outcome of the
    loop; what follows it is not visited. *)
Lemma for_each_first_failure {A : Type} (f : A -> Result unit)
    (before after : list A) (x : A) (err : Exn) :
  Forall (fun y => f y = Ok tt) before ->
  f x = Raise err ->
  for_each f (before ++ x :: after)%list = Raise err.
Proof.
  intros Hb Hx. induction Hb as [|y ys Hy _ IH]; simpl.
  - rewrite Hx. reflexivity.
  - rewrite Hy. simpl. exact IH.
Qed.

Lemma for_each_Raise {A : Type} (f : A -> Result unit) (xs : list A) (err : Exn) :
  for_each f xs = Raise err ->
  exists before x after,
    xs = (before ++ x :: after)%list /\
    Forall (fun y => f y = Ok tt) before /\ f x = Raise err.
Proof.
  induction xs as [|x xs IH]; simpl; intros H; [discriminate|].
  destruct (f x) as [[]|err'] eqn:Hx; simpl in H.
  - destruct (IH H) as (before & y & after & -> & Hb & Hy).
    exists (x :: before), y, after. repeat split; auto.
  - injection H as ->. exists [], x, xs. repeat split; auto.
Qed.

Lemma for_each_cases {A : Type} (f : A -> Result unit) (xs : list A) :
  Forall (fun x => f x = Ok tt) xs \/ exists err, for_each f xs = Raise err.
Proof.
  destruct (for_each f xs) as [[]|err] eqn:H.
  - left. apply for_each_Ok. exact H.
  - right. exists err. reflexivity.
Qed.

(** ** Unfolding one call node *)

Lemma check_types_MethodCall r m args :
  check_types (MethodCall r m args) =
  (for_each check_types args ;;;
   T <- static_type r ;;
   if ty_eq_dec T null then Raise (NoSuchMethod (msg_null_receiver m T))
   else if is_subtype_of T object then
     method <- method_named T m ;;
     if negb (length args =? length (argument_types method))%nat then
       Raise (JavaTypeError
                (msg_method_wrong_number T m
                   (length (argument_types method)) (length args)))
     else
       ok <- typecheck_arguments_function_call args (argument_types method) ;;
       if negb ok then
         received <- received_arguments args ;;
         Raise (JavaTypeError
                  (msg_method_mismatch T m
                     (map name (argument_types method)) received))
       else Ok tt
   else Raise (JavaTypeError (msg_no_methods T))).
Proof. reflexivity. Qed.

Lemma check_types_ConstructorCall T args :
  check_types (ConstructorCall T args) =
  (for_each check_types args ;;;
   if negb (is_subtype_of T object) then
     Raise (JavaTypeError (msg_not_instantiable T))
   else
     method <- constructor T ;;
     if negb (length args =? length (constructor_argument_types method))%nat then
       Raise (JavaTypeError
                (msg_constructor_wrong_number T
                   (length (constructor_argument_types method)) (length args)))
     else
       ok <- typecheck_arguments_function_call args (constructor_argument_types method) ;;
       if negb ok then
         received <- received_arguments args ;;
         Raise (JavaTypeError
                  (msg_constructor_mismatch T
                     (map name (constructor_argument_types method)) received))
       else Ok tt).
Proof. reflexivity. Qed.

(** A failing argument ends the check of the enclosing call with the
    argument's own exception. *)
Lemma check_types_MethodCall_args_raise r m args err :
  for_each check_types args = Raise err ->
  check_types (MethodCall r m args) = Raise err.
Proof. intros H. rewrite check_types_MethodCall, H. reflexivity. Qed.

Lemma check_types_ConstructorCall_args_raise T args err :
  for_each check_types args = Raise err ->
  check_types (ConstructorCall T args) = Raise err.
Proof. intros H. rewrite check_types_ConstructorCall, H. reflexivity. Qed.

(** Arguments are validated from left to right: the exception of the first
    argument that fails its own check is the one of the call, whatever
    follows that argument and whatever the rules of the call itself would
    say. *)
Lemma call_first_failing_argument r m T before arg after err :
  Forall (fun a => check_types a = Ok tt) before ->
  check_types arg = Raise err ->
  check_types (MethodCall r m (before ++ arg :: after)%list) = Raise err /\
  check_types (ConstructorCall T (before ++ arg :: after)%list) = Raise err.
Proof.
  intros Hb Ha. split.
  - apply check_types_MethodCall_args_raise.
    apply for_each_first_failure; assumption.
  - apply check_types_ConstructorCall_args_raise.
    apply for_each_first_failure; assumption.
Qed.

(** ** Leaves *)

(** C9: a [Variable], a [Literal] and the [NullLiteral] always pass
    [check_types], and their [static_type] is the declared type, the type of
    the literal and [Type.null]; the value of the [NullLiteral] is the fixed
    text "null". *)
Theorem leaves_check_and_static_type :
  (forall x T, check_types (Variable_ x T) = Ok tt /\
               static_type (Variable_ x T) = Ok T) /\
  (forall v T, check_types (Literal v T) = Ok tt /\
               static_type (Literal v T) = Ok T /\
               literal_value (Literal v T) = Some v /\
               literal_type (Literal v T) = Some T) /\
  (check_types (@NullLiteral Ty) = Ok tt /\
   static_type (@NullLiteral Ty) = Ok null /\
   literal_value (@NullLiteral Ty) = Some "null" /\
   literal_type (@NullLiteral Ty) = Some null).
Proof.
  split; [|split].
  - intros x T. split; reflexivity.
  - intros v T. repeat split.
  - repeat split.
Qed.

(** ** The static type of a call *)

Lemma static_type_MethodCall_Ok r m args T :
  static_type (MethodCall r m args) = Ok T <->
  exists Tr method,
    static_type r = Ok Tr /\ method_named Tr m = Ok method /\
    T = return_type method.
Proof.
  simpl. split.
  - destruct (static_type r) as [Tr|err]; simpl; [|discriminate].
    destruct (method_named Tr m) as [method|err] eqn:Hm; simpl; [|discriminate].
    intros H. injection H as <-. exists Tr, method. repeat split. exact Hm.
  - intros (Tr & method & -> & Hm & ->). simpl. rewrite Hm. reflexivity.
Qed.

Lemma static_type_MethodCall_Raise r m args err :
  static_type (MethodCall r m args) = Raise err <->
  static_type r = Raise err \/
  exists Tr, static_type r = Ok Tr /\ method_named Tr m = Raise err.
Proof.
  simpl. split.
  - destruct (static_type r) as [Tr|err'] eqn:Hr; simpl.
    + destruct (method_named Tr m) as [method|err''] eqn:Hm; simpl; [discriminate|].
      intros H. injection H as ->. right. exists Tr. split; [reflexivity|exact Hm].
    + intros H. injection H as ->. left. reflexivity.
  - intros [->|(Tr & -> & Hm)]; simpl; [reflexivity|].
    rewrite Hm. reflexivity.
Qed.

(** C3, as amended: [static_type] never looks at the arguments of a call
    and so does not depend on [check_types]; it returns a type on every
    [Variable], [Literal], [NullLiteral] and [ConstructorCall]; on a
    [MethodCall] it returns the return type of the method exactly when the
    receiver has a static type on which the method resolves, and raises the
    exception of the receiver or of the resolution otherwise. *)
Theorem static_type_total_except_unresolved_method :
  (forall x T, static_type (Variable_ x T) = Ok T) /\
  (forall v T, static_type (Literal v T) = Ok T) /\
  static_type (@NullLiteral Ty) = Ok null /\
  (forall T args, static_type (ConstructorCall T args) = Ok T) /\
  (forall r m args args',
      static_type (MethodCall r m args) = static_type (MethodCall r m args')) /\
  (forall r m args T,
      static_type (MethodCall r m args) = Ok T <->
      exists Tr method,
        static_type r = Ok Tr /\ method_named Tr m = Ok method /\
        T = return_type method) /\
  (forall r m args err,
      static_type (MethodCall r m args) = Raise err <->
      static_type r = Raise err \/
      exists Tr, static_type r = Ok Tr /\ method_named Tr m = Raise err).
Proof.
  repeat split; try reflexivity;
    try (apply static_type_MethodCall_Ok);
    try (apply static_type_MethodCall_Raise).
Qed.

(** ** A successful check of a method call *)

Lemma check_types_MethodCall_Ok r m args :
  check_types (MethodCall r m args) = Ok tt ->
  exists T method,
    Forall (fun arg => check_types arg = Ok tt) args /\
    static_type r = Ok T /\ T <> null /\ is_subtype_of T object = true /\
    method_named T m = Ok method /\
    length args = length (argument_types method) /\
    typecheck_arguments_function_call args (argument_types method) = Ok true.
Proof.
  intros H. rewrite check_types_MethodCall in H.
  destruct (for_each check_types args) as [[]|err] eqn:Hargs; simpl in H;
    [|discriminate].
  destruct (static_type r) as [T|err] eqn:Hr; simpl in H; [|discriminate].
  destruct (ty_eq_dec T null) as [Hnull|Hnull]; [discriminate|].
  destruct (is_subtype_of T object) eqn:Hobj; [|discriminate].
  destruct (method_named T m) as [method|err] eqn:Hm; simpl in H; [|discriminate].
  destruct (length args =? length (argument_types method))%nat eqn:Hlen;
    simpl in H; [|discriminate].
  destruct (typecheck_arguments_function_call args (argument_types method))
    as [[|]|err] eqn:Hok; simpl in H; try discriminate.
  - exists T, method.
    apply for_each_Ok in Hargs. apply Nat.eqb_eq in Hlen.
    repeat split; assumption.
  - destruct (received_arguments args); discriminate.
Qed.

(** C10: when [check_types] returns normally on a [MethodCall], the
    receiver has a static type in the object category other than
    [Type.null], the method resolves on it, and [static_type] of the same
    node returns the return type of that method. *)
Theorem check_types_MethodCall_static_type r m args :
  check_types (MethodCall r m args) = Ok tt ->
  exists T method,
    static_type r = Ok T /\ T <> null /\ is_subtype_of T object = true /\
    method_named T m = Ok method /\
    static_type (MethodCall r m args) = Ok (return_type method).
Proof.
  intros H.
  destruct (check_types_MethodCall_Ok _ _ _ H)
    as (T & method & _ & Hr & Hnull & Hobj & Hm & _).
  exists T, method. repeat split; auto.
  simpl. rewrite Hr. simpl. rewrite Hm. reflexivity.
Qed.

(** The same holds at every node: a checked expression has a static type. *)
Lemma check_types_static_type e :
  check_types e = Ok tt -> exists T, static_type e = Ok T.
Proof.
  destruct e as [x T|v T| |r m args|T args]; intros H.
  - exists T. reflexivity.
  - exists T. reflexivity.
  - exists null. reflexivity.
  - destruct (check_types_MethodCall_Ok _ _ _ H)
      as (Tr & method & _ & Hr & _ & _ & Hm & _).
    exists (return_type method). simpl. rewrite Hr. simpl. rewrite Hm. reflexivity.
  - exists T. reflexivity.
Qed.

(** ** The argument-compatibility routine *)

Lemma typecheck_arguments_cons arg args type types :
  typecheck_arguments_function_call (arg :: args) (type :: types) =
  (T <- static_type arg ;;
   if position_ok T type
   then typecheck_arguments_function_call args types
   else Ok false).
Proof.
  unfold position_ok. simpl.
  destruct (static_type arg) as [T|err]; simpl; [|reflexivity].
  destruct (is_subtype_of T type); simpl; reflexivity.
Qed.

Lemma compatible_spec_position_ok arg type T :
  static_type arg = Ok T ->
  (compatible_spec arg type <-> position_ok T type = true).
Proof.
  intros Hs. unfold compatible_spec, position_ok. rewrite Hs. split.
  - intros (T' & HT & Hc). injection HT as <-.
    apply orb_true_iff. destruct Hc as [Hc|[Hn Ho]]; [left; exact Hc|right].
    rewrite Ho. destruct (ty_eq_dec T null); [reflexivity|contradiction].
  - intros H. exists T. split; [reflexivity|].
    apply orb_true_iff in H. destruct H as [H|H]; [left; exact H|right].
    apply andb_true_iff in H. destruct H as [Hn Ho].
    destruct (ty_eq_dec T null); [auto|discriminate].
Qed.

Lemma compatible_spec_has_static_type arg type :
  compatible_spec arg type -> exists T, static_type arg = Ok T.
Proof. intros (T & HT & _). exists T. exact HT. Qed.

Lemma typecheck_arguments_true args : forall types,
  typecheck_arguments_function_call args types = Ok true <->
  Forall (fun pair => compatible_spec (fst pair) (snd pair)) (combine args types).
Proof.
  induction args as [|arg args IH]; intros types.
  - simpl. split; auto.
  - destruct types as [|type types].
    + simpl. split; auto.
    + rewrite typecheck_arguments_cons. simpl combine. split.
      * destruct (static_type arg) as [T|err] eqn:Hs; simpl; [|discriminate].
        destruct (position_ok T type) eqn:Hp; [|discriminate].
        intros H. constructor.
        -- simpl. apply (compatible_spec_position_ok arg type T Hs). exact Hp.
        -- apply IH. exact H.
      * intros H. inversion H as [|pair rest Hc Hrest]; subst. simpl in Hc.
        destruct (compatible_spec_has_static_type _ _ Hc) as [T Hs].
        rewrite Hs. simpl.
        apply (compatible_spec_position_ok arg type T Hs) in Hc. rewrite Hc.
        apply IH. exact Hrest.
Qed.

Lemma typecheck_arguments_firstn args : forall types,
  typecheck_arguments_function_call args types =
  typecheck_arguments_function_call
    (firstn (Nat.min (length args) (length types)) args)
    (firstn (Nat.min (length args) (length types)) types).
Proof.
  induction args as [|arg args IH]; intros types.
  - reflexivity.
  - destruct types as [|type types].
    + reflexivity.
    + simpl length. simpl Nat.min. simpl firstn.
      rewrite !typecheck_arguments_cons. rewrite <- IH. reflexivity.
Qed.

(** When every argument has a static type the routine returns a boolean. *)
Lemma typecheck_arguments_returns args : forall types,
  Forall (fun arg => exists T, static_type arg = Ok T) args ->
  exists b, typecheck_arguments_function_call args types = Ok b.
Proof.
  induction args as [|arg args IH]; intros types Hall.
  - exists true. reflexivity.
  - destruct types as [|type types]; [exists true; reflexivity|].
    inversion Hall as [|? ? [T Hs] Hrest]; subst.
    rewrite typecheck_arguments_cons, Hs. simpl.
    destruct (position_ok T type); [apply IH; exact Hrest|].
    exists false. reflexivity.
Qed.

(** C6: the routine returns true exactly when every pair of the zipped
    sequences is compatible; it reads the two sequences only up to the
    length of the shorter one and never compares their lengths, so that an
    empty sequence on either side is accepted. *)
Theorem typecheck_arguments_function_call_correct :
  (forall args types,
      typecheck_arguments_function_call args types = Ok true <->
      Forall (fun pair => compatible_spec (fst pair) (snd pair))
             (combine args types)) /\
  (forall args types,
      typecheck_arguments_function_call args types =
      typecheck_arguments_function_call
        (firstn (Nat.min (length args) (length types)) args)
        (firstn (Nat.min (length args) (length types)) types)) /\
  (forall args, typecheck_arguments_function_call args [] = Ok true) /\
  (forall types, typecheck_arguments_function_call [] types = Ok true).
Proof.
  split; [|split; [|split]].
  - intros args types. apply typecheck_arguments_true.
  - intros args types. apply typecheck_arguments_firstn.
  - intros [|arg args]; reflexivity.
  - intros types. reflexivity.
Qed.

(** C4, as amended: an argument whose static type is [Type.null] is
    compatible with an expected type exactly when [Type.null] is a subtype
    of that type or that type is a subtype of [Type.object]; hence it is
    accepted for every type of the object category, whatever
    [Type.null.is_subtype_of(Type.object)] answers, and rejected for a type
    outside the object category unless [Type.null] is a subtype of it. *)
Theorem null_argument_compatibility arg type :
  static_type arg = Ok null ->
  typecheck_arguments_function_call [arg] [type] =
    Ok (is_subtype_of null type || is_subtype_of type object) /\
  (forall args types,
      typecheck_arguments_function_call (arg :: args) (type :: types) =
      if is_subtype_of null type || is_subtype_of type object
      then typecheck_arguments_function_call args types
      else Ok false) /\
  (compatible_spec arg type <->
   is_subtype_of null type = true \/ is_subtype_of type object = true) /\
  (is_subtype_of type object = true -> compatible_spec arg type) /\
  (is_subtype_of type object = false -> is_subtype_of null type = false ->
   ~ compatible_spec arg type).
Proof.
  intros Hs.
  assert (Hp : position_ok null type =
               is_subtype_of null type || is_subtype_of type object).
  { unfold position_ok. destruct (ty_eq_dec null null); [reflexivity|contradiction]. }
  assert (Hc : compatible_spec arg type <->
               is_subtype_of null type = true \/ is_subtype_of type object = true).
  { rewrite (compatible_spec_position_ok arg type null Hs), Hp. apply orb_true_iff. }
  split; [|split; [|split; [|split]]].
  - rewrite typecheck_arguments_cons, Hs. simpl. rewrite Hp.
    destruct (is_subtype_of null type || is_subtype_of type object); reflexivity.
  - intros args types. rewrite typecheck_arguments_cons, Hs. simpl. rewrite Hp.
    reflexivity.
  - exact Hc.
  - intros Ho. apply Hc. right. exact Ho.
  - intros Ho Hn. rewrite Hc, Ho, Hn. intros [H|H]; discriminate.
Qed.

(** ** Method calls on a receiver without methods *)

(** C2, as amended: when the static type of the receiver is [Type.null],
    [check_types] of the [MethodCall] always fails, whatever the method
    name; it raises [NoSuchMethod] when every argument passes its own
    check, and the exception of the first failing argument otherwise. *)
Theorem null_receiver_always_fails r m args :
  static_type r = Ok null ->
  (exists err, check_types (MethodCall r m args) = Raise err) /\
  (Forall (fun arg => check_types arg = Ok tt) args ->
   check_types (MethodCall r m args) =
     Raise (NoSuchMethod (msg_null_receiver m null))) /\
  (forall err, for_each check_types args = Raise err ->
               check_types (MethodCall r m args) = Raise err).
Proof.
  intros Hr.
  assert (Hok : Forall (fun arg => check_types arg = Ok tt) args ->
                check_types (MethodCall r m args) =
                  Raise (NoSuchMethod (msg_null_receiver m null))).
  { intros Hargs. apply for_each_Ok in Hargs.
    rewrite check_types_MethodCall, Hargs, Hr. simpl.
    destruct (ty_eq_dec null null); [reflexivity|contradiction]. }
  split; [|split].
  - destruct (for_each_cases check_types args) as [Hargs|[err Herr]].
    + eexists. apply Hok. exact Hargs.
    + exists err. apply check_types_MethodCall_args_raise. exact Herr.
  - exact Hok.
  - intros err. apply check_types_MethodCall_args_raise.
Qed.

(** C8, as amended: when the static type [T] of the receiver is neither
    [Type.null] nor a subtype of [Type.object], [check_types] of the
    [MethodCall] always fails, whatever [T.method_named] would answer; it
    raises the [JavaTypeError] "Type T does not have methods" when every
    argument passes its own check, and the exception of the first failing
    argument otherwise. *)
Theorem receiver_without_methods_fails r m args T :
  static_type r = Ok T ->
  T <> null ->
  is_subtype_of T object = false ->
  (exists err, check_types (MethodCall r m args) = Raise err) /\
  (Forall (fun arg => check_types arg = Ok tt) args ->
   check_types (MethodCall r m args) = Raise (JavaTypeError (msg_no_methods T))) /\
  (forall err, for_each check_types args = Raise err ->
               check_types (MethodCall r m args) = Raise err).
Proof.
  intros Hr Hnull Hobj.
  assert (Hok : Forall (fun arg => check_types arg = Ok tt) args ->
                check_types (MethodCall r m args) =
                  Raise (JavaTypeError (msg_no_methods T))).
  { intros Hargs. apply for_each_Ok in Hargs.
    rewrite check_types_MethodCall, Hargs, Hr. simpl.
    destruct (ty_eq_dec T null); [contradiction|].
    rewrite Hobj. reflexivity. }
  split; [|split].
  - destruct (for_each_cases check_types args) as [Hargs|[err Herr]].
    + eexists. apply Hok. exact Hargs.
    + exists err. apply check_types_MethodCall_args_raise. exact Herr.
  - exact Hok.
  - intros err. apply check_types_MethodCall_args_raise.
Qed.

(** ** Wrong number of arguments *)

Lemma method_wrong_number r m args T method :
  static_type r = Ok T ->
  T <> null ->
  is_subtype_of T object = true ->
  method_named T m = Ok method ->
  length args <> length (argument_types method) ->
  Forall (fun arg => check_types arg = Ok tt) args ->
  check_types (MethodCall r m args) =
    Raise (JavaTypeError
             (msg_method_wrong_number T m
                (length (argument_types method)) (length args))).
Proof.
  intros Hr Hnull Hobj Hm Hlen Hargs. apply for_each_Ok in Hargs.
  rewrite check_types_MethodCall, Hargs, Hr. simpl.
  destruct (ty_eq_dec T null); [contradiction|].
  rewrite Hobj, Hm. simpl.
  apply Nat.eqb_neq in Hlen. rewrite Hlen. reflexivity.
Qed.

Lemma constructor_wrong_number T args ctor :
  is_subtype_of T object = true ->
  constructor T = Ok ctor ->
  length args <> length (constructor_argument_types ctor) ->
  Forall (fun arg => check_types arg = Ok tt) args ->
  check_types (ConstructorCall T args) =
    Raise (JavaTypeError
             (msg_constructor_wrong_number T
                (length (constructor_argument_types ctor)) (length args))).
Proof.
  intros Hobj Hc Hlen Hargs. apply for_each_Ok in Hargs.
  rewrite check_types_ConstructorCall, Hargs. simpl.
  rewrite Hobj, Hc. simpl.
  apply Nat.eqb_neq in Hlen. rewrite Hlen. reflexivity.
Qed.

(** C5, as amended: a [MethodCall] whose receiver has a static type other
    than [Type.null] in the object category on which the method resolves,
    and a [ConstructorCall] of a type of the object category with a
    constructor, given a number of arguments other than the number of
    parameter types, always fail; when every argument passes its own check
    the exception is the [JavaTypeError] "Wrong number of arguments ...",
    whose text ends with the expected and the actual count, whether or not
    the arguments are compatible with the parameter types; otherwise it is
    the exception of the first failing argument. *)
Theorem wrong_number_of_arguments :
  (forall r m args T method,
      static_type r = Ok T ->
      T <> null ->
      is_subtype_of T object = true ->
      method_named T m = Ok method ->
      length args <> length (argument_types method) ->
      (exists err, check_types (MethodCall r m args) = Raise err) /\
      (Forall (fun arg => check_types arg = Ok tt) args ->
       check_types (MethodCall r m args) =
         Raise (JavaTypeError
                  (msg_method_wrong_number T m
                     (length (argument_types method)) (length args)))) /\
      (forall err, for_each check_types args = Raise err ->
                   check_types (MethodCall r m args) = Raise err)) /\
  (forall T args ctor,
      is_subtype_of T object = true ->
      constructor T = Ok ctor ->
      length args <> length (constructor_argument_types ctor) ->
      (exists err, check_types (ConstructorCall T args) = Raise err) /\
      (Forall (fun arg => check_types arg = Ok tt) args ->
       check_types (ConstructorCall T args) =
         Raise (JavaTypeError
                  (msg_constructor_wrong_number T
                     (length (constructor_argument_types ctor)) (length args)))) /\
      (forall err, for_each check_types args = Raise err ->
                   check_types (ConstructorCall T args) = Raise err)) /\
  (forall T m expected got,
      exists before,
        msg_method_wrong_number T m expected got =
        before ++ "expected " ++ str_of_int expected
               ++ ", got " ++ str_of_int got) /\
  (forall T expected got,
      exists before,
        msg_constructor_wrong_number T expected got =
        before ++ "expected " ++ str_of_int expected
               ++ ", got " ++ str_of_int got).
Proof.
  split; [|split; [|split]].
  - intros r m args T method Hr Hnull Hobj Hm Hlen. split; [|split].
    + destruct (for_each_cases check_types args) as [Hargs|[err Herr]].
      * eexists. apply (method_wrong_number r m args T method); assumption.
      * exists err. apply check_types_MethodCall_args_raise. exact Herr.
    + apply method_wrong_number; assumption.
    + intros err. apply check_types_MethodCall_args_raise.
  - intros T args ctor Hobj Hc Hlen. split; [|split].
    + destruct (for_each_cases check_types args) as [Hargs|[err Herr]].
      * eexists. apply (constructor_wrong_number T args ctor); assumption.
      * exists err. apply check_types_ConstructorCall_args_raise. exact Herr.
    + apply constructor_wrong_number; assumption.
    + intros err. apply check_types_ConstructorCall_args_raise.
  - intros T m expected got.
    exists ("Wrong number of arguments for " ++ name T ++ "." ++ m ++ "(): ").
    unfold msg_method_wrong_number.
    rewrite !append_assoc. reflexivity.
  - intros T expected got.
    exists ("Wrong number of arguments for " ++ name T ++ " constructor: ").
    unfold msg_constructor_wrong_number.
    rewrite !append_assoc. reflexivity.
Qed.

(** ** Instantiation of a type without constructor *)

Lemma for_each_ext {A : Type} (f g : A -> Result unit) (xs : list A) :
  Forall (fun x => f x = g x) xs -> for_each f xs = for_each g xs.
Proof.
  intros H. induction H as [|x xs Hx _ IH]; simpl; [reflexivity|].
  rewrite Hx, IH. reflexivity.
Qed.

End Properties.

Section OtherConstructors.

Context {Ty : Type} (TM : TypeModel Ty).

Variable constructor' : Ty -> Result (ConstructorSignature Ty).

Lemma static_type_with_constructor e :
  @static_type Ty (with_constructor TM constructor') e = @static_type Ty TM e.
Proof. reflexivity. Qed.

Lemma typecheck_arguments_with_constructor args types :
  @typecheck_arguments_function_call Ty (with_constructor TM constructor') args types =
  @typecheck_arguments_function_call Ty TM args types.
Proof. reflexivity. Qed.

Lemma received_arguments_with_constructor args :
  @received_arguments Ty (with_constructor TM constructor') args =
  @received_arguments Ty TM args.
Proof. reflexivity. Qed.

(** [check_types] reads the [constructor] attribute of types of the object
    category only: changing the table elsewhere changes no outcome. *)
Lemma check_types_with_constructor :
  (forall T, @is_subtype_of Ty TM T (@object Ty TM) = true ->
             constructor' T = @constructor Ty TM T) ->
  forall e,
    @check_types Ty (with_constructor TM constructor') e = @check_types Ty TM e.
Proof.
  intros Hsame e.
  induction e as [x T|v T| |r m args _ IHargs|T args IHargs]
    using Expression_tree_ind; try reflexivity.
  - rewrite (@check_types_MethodCall Ty (with_constructor TM constructor')),
      (@check_types_MethodCall Ty TM).
    rewrite (for_each_ext _ _ args IHargs), static_type_with_constructor.
    destruct (for_each (@check_types Ty TM) args) as [[]|err]; simpl; [|reflexivity].
    destruct (@static_type Ty TM r) as [T|err]; simpl; [|reflexivity].
    destruct (@ty_eq_dec Ty TM T (@null Ty TM)); [reflexivity|].
    destruct (@is_subtype_of Ty TM T (@object Ty TM)); [|reflexivity].
    destruct (@method_named Ty TM T m) as [method|err]; simpl; [|reflexivity].
    reflexivity.
  - rewrite (@check_types_ConstructorCall Ty (with_constructor TM constructor')),
      (@check_types_ConstructorCall Ty TM).
    rewrite (for_each_ext _ _ args IHargs).
    destruct (for_each (@check_types Ty TM) args) as [[]|err]; simpl; [|reflexivity].
    destruct (@is_subtype_of Ty TM T (@object Ty TM)) eqn:Hobj; simpl; [|reflexivity].
    rewrite (Hsame T Hobj). reflexivity.
Qed.

End OtherConstructors.

Section Instantiation.

Context {Ty : Type} {TM : TypeModel Ty}.

Implicit Types (args : list (Expression Ty)) (T : Ty).


(** C7, as amended: when the instantiated type is not a subtype of
    [Type.object], [check_types] of the [ConstructorCall] validates the
    arguments and then raises the [JavaTypeError] "Type ... is not
    instantiable": it always fails, with that exception when every argument
    passes its own check, and with the exception of the first failing
    argument otherwise; the [constructor] of a type outside the object
    category is never read, neither here nor anywhere in the tree. *)
Theorem not_instantiable T args :
  is_subtype_of T object = false ->
  check_types (ConstructorCall T args) =
    (for_each check_types args ;;;
     Raise (JavaTypeError (msg_not_instantiable T))) /\
  (exists err, check_types (ConstructorCall T args) = Raise err) /\
  (Forall (fun arg => check_types arg = Ok tt) args ->
   check_types (ConstructorCall T args) =
     Raise (JavaTypeError (msg_not_instantiable T))) /\
  (forall err, for_each check_types args = Raise err ->
               check_types (ConstructorCall T args) = Raise err) /\
  (forall constructor' : Ty -> Result (ConstructorSignature Ty),
      (forall T', is_subtype_of T' object = true ->
                  constructor' T' = constructor T') ->
      forall e,
        @check_types Ty (with_constructor TM constructor') e = check_types e).
Proof.
  intros Hobj.
  assert (Heq : check_types (ConstructorCall T args) =
                (for_each check_types args ;;;
                 Raise (JavaTypeError (msg_not_instantiable T)))).
  { rewrite check_types_ConstructorCall, Hobj. reflexivity. }
  split; [exact Heq|]. rewrite Heq. split; [|split; [|split]].
  - destruct (for_each check_types args) as [[]|err]; simpl; eexists; reflexivity.
  - intros Hargs. apply for_each_Ok in Hargs. rewrite Hargs. reflexivity.
  - intros err ->. reflexivity.
  - intros constructor' Hsame e. apply check_types_with_constructor. exact Hsame.
Qed.

End Instantiation.

(** ** The receiver of a method call *)

(** The outcome of a [MethodCall] depends on the receiver through its
    static type only. *)
Lemma check_types_MethodCall_receiver {Ty : Type} {TM : TypeModel Ty}
    (r r' : Expression Ty) (m : string) (args : list (Expression Ty)) :
  static_type r = static_type r' ->
  check_types (MethodCall r m args) = check_types (MethodCall r' m args).
Proof. intros H. rewrite !check_types_MethodCall, H. reflexivity. Qed.

(** * The checker on the sample model *)

Section OnTheSampleModel.

Import Sample.

(** C1: the receiver of a [MethodCall] is not validated.  The check of
    [new Foo(1)] raises the error of a wrong number of arguments, the check
    of [new Foo(1).hashCode()] returns normally; an argument in the same
    state, as in [foo.bar(new Foo(1))] or [new String(new Foo(1))], does
    make the enclosing call fail with that error. *)
Theorem receiver_is_not_validated :
  check_types new_Foo_1 =
    Raise (JavaTypeError
             "Wrong number of arguments for Foo constructor: expected 0, got 1") /\
  check_types (MethodCall new_Foo_1 "hashCode" []) = Ok tt /\
  check_types (MethodCall foo "bar" [new_Foo_1]) = check_types new_Foo_1 /\
  check_types (ConstructorCall Tstring [new_Foo_1]) = check_types new_Foo_1.
Proof. repeat split. Qed.

(** ** Inputs on which the error is not the one of the enclosing call *)

(** [null.foo(new int())]: the receiver has the static type [Type.null],
    the exception is the [JavaTypeError] of the argument. *)
Lemma null_receiver_with_failing_argument :
  static_type null_literal = Ok Tnull /\
  check_types (MethodCall null_literal "foo" [new_int]) =
    Raise (JavaTypeError "Type int is not instantiable") /\
  ~ (exists msg, check_types (MethodCall null_literal "foo" [new_int]) =
                 Raise (NoSuchMethod msg)).
Proof.
  split; [reflexivity|]. split; [reflexivity|].
  intros [msg H]. discriminate H.
Qed.

(** [foo.baz()]: [Foo] has no method [baz], and [static_type] raises. *)
Lemma static_type_of_unresolved_method :
  static_type (MethodCall foo "baz" []) =
    Raise (NoSuchMethod "Foo has no method named baz") /\
  ~ (exists T, static_type (MethodCall foo "baz" []) = Ok T).
Proof.
  split; [reflexivity|]. intros [T H]. discriminate H.
Qed.

(** [null] against an expected type [Type.null]: the expected type is not
    in the object category, and the argument is accepted, being of a
    subtype of the expected type. *)
Lemma null_argument_for_null_parameter :
  static_type null_literal = Ok Tnull /\
  is_subtype_of Tnull Tobject = false /\
  typecheck_arguments_function_call [null_literal] [Tnull] = Ok true /\
  compatible_spec null_literal Tnull.
Proof.
  split; [reflexivity|]. split; [reflexivity|]. split; [reflexivity|].
  exists Tnull. split; [reflexivity|]. left. reflexivity.
Qed.

(** [foo.bar(1, new int())]: two arguments for one parameter, and the
    exception is the one of the second argument. *)
Lemma wrong_number_with_failing_argument :
  static_type foo = Ok Tfoo /\
  Tfoo <> null /\
  is_subtype_of Tfoo object = true /\
  method_named Tfoo "bar" =
    Ok {| argument_types := [Tint]; return_type := Tvoid |} /\
  length [one; new_int] <> length [Tint] /\
  check_types (MethodCall foo "bar" [one; new_int]) =
    Raise (JavaTypeError "Type int is not instantiable") /\
  check_types (MethodCall foo "bar" [one; new_int]) <>
    Raise (JavaTypeError (msg_method_wrong_number Tfoo "bar" 1 2)).
Proof.
  repeat split; try discriminate.
Qed.

(** [x.foo(null.toString())] with [x] of type [int]: the exception is the
    [NoSuchMethod] of the argument. *)
Lemma primitive_receiver_with_failing_argument :
  static_type x_int = Ok Tint /\
  Tint <> null /\
  is_subtype_of Tint object = false /\
  check_types (MethodCall x_int "foo" [null_toString]) =
    Raise (NoSuchMethod "Cannot invoke method toString() on null") /\
  ~ (exists msg, check_types (MethodCall x_int "foo" [null_toString]) =
                 Raise (JavaTypeError msg)).
Proof.
  split; [reflexivity|]. split; [discriminate|].
  split; [reflexivity|]. split; [reflexivity|].
  intros [msg H]. discriminate H.
Qed.

(** [new int(null.toString())]: the instantiated type is outside the object
    category, and the exception is the [NoSuchMethod] of the argument, not
    a [JavaTypeError]. *)
Lemma not_instantiable_with_failing_argument :
  is_subtype_of Tint object = false /\
  check_types null_toString =
    Raise (NoSuchMethod "Cannot invoke method toString() on null") /\
  check_types (ConstructorCall Tint [null_toString]) =
    Raise (NoSuchMethod "Cannot invoke method toString() on null") /\
  ~ (exists msg, check_types (ConstructorCall Tint [null_toString]) =
                 Raise (JavaTypeError msg)).
Proof.
  split; [reflexivity|]. split; [reflexivity|]. split; [reflexivity|].
  intros [msg H]. discriminate H.
Qed.

(** ** The theorems at inputs of the sample model *)

(** [foo.bar(1)] passes the check, and its static type is [void]. *)
Lemma check_types_MethodCall_static_type_witness :
  check_types (MethodCall foo "bar" [one]) = Ok tt /\
  exists T method,
    static_type foo = Ok T /\ T <> null /\ is_subtype_of T object = true /\
    method_named T "bar" = Ok method /\
    static_type (MethodCall foo "bar" [one]) = Ok (return_type method).
Proof.
  split; [reflexivity|].
  apply (check_types_MethodCall_static_type foo "bar" [one]). reflexivity.
Defined.

(** [null] is accepted where a [String] is expected. *)
Lemma null_argument_compatibility_witness :
  static_type null_literal = Ok Tnull /\
  typecheck_arguments_function_call [null_literal] [Tstring] = Ok true.
Proof.
  split; [reflexivity|].
  exact (proj1 (null_argument_compatibility null_literal Tstring eq_refl)).
Defined.

(** [null.toString()] raises [NoSuchMethod]. *)
Lemma null_receiver_always_fails_witness :
  static_type null_literal = Ok Tnull /\
  check_types (MethodCall null_literal "toString" []) =
    Raise (NoSuchMethod "Cannot invoke method toString() on null").
Proof.
  split; [reflexivity|].
  exact (proj1 (proj2 (null_receiver_always_fails
                         null_literal "toString" [] eq_refl))
               (Forall_nil _)).
Defined.

(** [x.foo()] with [x] of type [int] raises "Type int does not have
    methods". *)
Lemma receiver_without_methods_fails_witness :
  static_type x_int = Ok Tint /\
  check_types (MethodCall x_int "foo" []) =
    Raise (JavaTypeError "Type int does not have methods").
Proof.
  split; [reflexivity|].
  assert (Hne : Tint <> null) by discriminate.
  exact (proj1 (proj2 (receiver_without_methods_fails
                         x_int "foo" [] Tint eq_refl Hne eq_refl))
               (Forall_nil _)).
Defined.

(** [foo.bar()] and [new String()] raise the error of a wrong number of
    arguments. *)
Lemma wrong_number_of_arguments_witness :
  check_types (MethodCall foo "bar" []) =
    Raise (JavaTypeError
             "Wrong number of arguments for Foo.bar(): expected 1, got 0") /\
  check_types (ConstructorCall Tstring []) =
    Raise (JavaTypeError
             "Wrong number of arguments for String constructor: expected 1, got 0").
Proof.
  destruct (@wrong_number_of_arguments JavaType model) as (Hm & Hc & _).
  split.
  - assert (Hfoo : Tfoo <> null) by discriminate.
    assert (Hlen : length (@nil (Expression JavaType)) <> length [Tint])
      by discriminate.
    exact (proj1 (proj2 (Hm foo "bar" [] Tfoo
                            {| argument_types := [Tint]; return_type := Tvoid |}
                            eq_refl Hfoo eq_refl eq_refl Hlen))
                 (Forall_nil _)).
  - assert (Hlen : length (@nil (Expression JavaType)) <> length [Tobject])
      by discriminate.
    exact (proj1 (proj2 (Hc Tstring []
                            {| constructor_argument_types := [Tobject] |}
                            eq_refl eq_refl Hlen))
                 (Forall_nil _)).
Defined.

(** [new int(1, null)], whose two arguments pass their own checks, raises
    "Type int is not instantiable". *)
Lemma not_instantiable_witness :
  is_subtype_of Tint object = false /\
  Forall (fun arg => check_types arg = Ok tt) [one; null_literal] /\
  check_types (ConstructorCall Tint [one; null_literal]) =
    Raise (JavaTypeError "Type int is not instantiable").
Proof.
  assert (Hargs : Forall (fun arg => check_types arg = Ok tt)
                         [one; null_literal]) by (repeat constructor).
  split; [reflexivity|]. split; [exact Hargs|].
  exact (proj1 (proj2 (proj2 (not_instantiable Tint [one; null_literal] eq_refl)))
               Hargs).
Defined.

End OnTheSampleModel.

(** * Further properties of the checker *)

Section Outcomes.

Context {Ty : Type} {TM : TypeModel Ty}.

Implicit Types (e r arg : Expression Ty) (args : list (Expression Ty))
               (T type : Ty) (types : list Ty).

(** ** Zipped pairs and positions *)

Lemma Forall_combine_Forall2 {A B : Type} (R : A -> B -> Prop)
    (xs : list A) : forall ys : list B,
  length xs = length ys ->
  (Forall (fun pair => R (fst pair) (snd pair)) (combine xs ys) <->
   Forall2 R xs ys).
Proof.
  induction xs as [|x xs IH]; intros [|y ys] Hlen; simpl in *;
    try discriminate.
  - split; constructor.
  - injection Hlen as Hlen. split; intros H; inversion H; subst; constructor;
      try assumption; apply (IH ys Hlen); assumption.
Qed.

Lemma Forall2_same_length {A B : Type} (R : A -> B -> Prop)
    (xs : list A) (ys : list B) :
  Forall2 R xs ys -> length xs = length ys.
Proof. intros H. induction H; simpl; congruence. Qed.

Lemma typecheck_arguments_Forall2 args types :
  length args = length types ->
  (typecheck_arguments_function_call args types = Ok true <->
   Forall2 compatible_spec args types).
Proof.
  intros Hlen. rewrite typecheck_arguments_true.
  apply Forall_combine_Forall2. exact Hlen.
Qed.

Lemma position_not_ok_incompatible arg type T :
  static_type arg = Ok T ->
  position_ok T type = false ->
  ~ compatible_spec arg type.
Proof.
  intros Hs Hp Hc. apply (compatible_spec_position_ok arg type T Hs) in Hc.
  congruence.
Qed.

(** ** Arguments that passed their own check *)

Lemma checked_have_static_type args :
  Forall (fun arg => check_types arg = Ok tt) args ->
  Forall (fun arg => exists T, static_type arg = Ok T) args.
Proof.
  intros H. induction H as [|arg args Ha _ IH]; constructor; [|exact IH].
  apply check_types_static_type. exact Ha.
Qed.

Lemma received_arguments_returns args :
  Forall (fun arg => exists T, static_type arg = Ok T) args ->
  exists received,
    received_arguments args = Ok received /\
    Forall2 (fun arg s => exists T, static_type arg = Ok T /\ s = name T)
            args received.
Proof.
  unfold received_arguments.
  intros H. induction H as [|arg args [T HT] _ (received & Hr & Hall)]; simpl.
  - exists []. split; [reflexivity|constructor].
  - rewrite HT. simpl. rewrite Hr. simpl.
    exists (name T :: received). split; [reflexivity|].
    constructor; [|exact Hall]. exists T. split; [exact HT|reflexivity].
Qed.

Lemma typecheck_arguments_of_checked args types :
  Forall (fun arg => check_types arg = Ok tt) args ->
  exists b, typecheck_arguments_function_call args types = Ok b.
Proof.
  intros H. apply typecheck_arguments_returns.
  apply checked_have_static_type. exact H.
Qed.

(** ** When a call passes *)

(** X1: [check_types] of a [MethodCall] returns normally exactly when every
    argument passes its own check, the receiver has a static type other
    than [Type.null] in the object category on which the method resolves,
    and the arguments are, position by position and in equal number,
    compatible with the parameter types of the method. *)
Theorem check_types_MethodCall_Ok_iff r m args :
  check_types (MethodCall r m args) = Ok tt <->
  Forall (fun arg => check_types arg = Ok tt) args /\
  exists T method,
    static_type r = Ok T /\ T <> null /\ is_subtype_of T object = true /\
    method_named T m = Ok method /\
    Forall2 compatible_spec args (argument_types method).
Proof.
  split.
  - intros H.
    destruct (check_types_MethodCall_Ok _ _ _ H)
      as (T & method & Hargs & Hr & Hnull & Hobj & Hm & Hlen & Hok).
    split; [exact Hargs|]. exists T, method. repeat split; try assumption.
    apply typecheck_arguments_Forall2; assumption.
  - intros (Hargs & T & method & Hr & Hnull & Hobj & Hm & Hall).
    pose proof (Forall2_same_length _ _ _ Hall) as Hlen.
    apply typecheck_arguments_Forall2 in Hall; [|exact Hlen].
    apply for_each_Ok in Hargs.
    rewrite check_types_MethodCall, Hargs, Hr. simpl.
    destruct (ty_eq_dec T null); [contradiction|].
    rewrite Hobj, Hm. simpl.
    apply Nat.eqb_eq in Hlen. rewrite Hlen. simpl.
    rewrite Hall. reflexivity.
Qed.

Lemma check_types_ConstructorCall_Ok T args :
  check_types (ConstructorCall T args) = Ok tt ->
  exists ctor,
    Forall (fun arg => check_types arg = Ok tt) args /\
    is_subtype_of T object = true /\
    constructor T = Ok ctor /\
    length args = length (constructor_argument_types ctor) /\
    typecheck_arguments_function_call args (constructor_argument_types ctor)
      = Ok true.
Proof.
  intros H. rewrite check_types_ConstructorCall in H.
  destruct (for_each check_types args) as [[]|err] eqn:Hargs; simpl in H;
    [|discriminate].
  destruct (is_subtype_of T object) eqn:Hobj; simpl in H; [|discriminate].
  destruct (constructor T) as [ctor|err] eqn:Hc; simpl in H; [|discriminate].
  destruct (length args =? length (constructor_argument_types ctor))%nat eqn:Hlen;
    simpl in H; [|discriminate].
  destruct (typecheck_arguments_function_call args (constructor_argument_types ctor))
    as [[|]|err] eqn:Hok; simpl in H; try discriminate.
  - exists ctor.
    apply for_each_Ok in Hargs. apply Nat.eqb_eq in Hlen.
    repeat split; assumption.
  - destruct (received_arguments args); discriminate.
Qed.

(** X2: [check_types] of a [ConstructorCall] returns normally exactly when
    every argument passes its own check, the instantiated type is in the
    object category and has a constructor, and the arguments are, position
    by position and in equal number, compatible with its parameter types. *)
Theorem check_types_ConstructorCall_Ok_iff T args :
  check_types (ConstructorCall T args) = Ok tt <->
  Forall (fun arg => check_types arg = Ok tt) args /\
  is_subtype_of T object = true /\
  exists ctor,
    constructor T = Ok ctor /\
    Forall2 compatible_spec args (constructor_argument_types ctor).
Proof.
  split.
  - intros H.
    destruct (check_types_ConstructorCall_Ok _ _ H)
      as (ctor & Hargs & Hobj & Hc & Hlen & Hok).
    split; [exact Hargs|]. split; [exact Hobj|].
    exists ctor. split; [exact Hc|].
    apply typecheck_arguments_Forall2; assumption.
  - intros (Hargs & Hobj & ctor & Hc & Hall).
    pose proof (Forall2_same_length _ _ _ Hall) as Hlen.
    apply typecheck_arguments_Forall2 in Hall; [|exact Hlen].
    apply for_each_Ok in Hargs.
    rewrite check_types_ConstructorCall, Hargs. simpl.
    rewrite Hobj, Hc. simpl.
    apply Nat.eqb_eq in Hlen. rewrite Hlen. simpl.
    rewrite Hall. reflexivity.
Qed.

(** ** Arguments of the wrong type *)

Lemma typecheck_arguments_false args types :
  Forall (fun arg => check_types arg = Ok tt) args ->
  length args = length types ->
  ~ Forall2 compatible_spec args types ->
  typecheck_arguments_function_call args types = Ok false.
Proof.
  intros Hargs Hlen Hnot.
  destruct (typecheck_arguments_of_checked args types Hargs) as [[|] Hb];
    [|exact Hb].
  exfalso. apply Hnot. apply typecheck_arguments_Forall2; assumption.
Qed.

(** X3: A [MethodCall] with the right number of arguments, all of which pass
    their own check, but not all compatible with the parameter types,
    raises the [JavaTypeError] "... expects arguments of type (...), but
    got (...)", which lists the names of the parameter types and the names
    of the static types of the arguments, both in order. *)
Theorem method_argument_mismatch r m args T method :
  Forall (fun arg => check_types arg = Ok tt) args ->
  static_type r = Ok T ->
  T <> null ->
  is_subtype_of T object = true ->
  method_named T m = Ok method ->
  length args = length (argument_types method) ->
  ~ Forall2 compatible_spec args (argument_types method) ->
  exists received,
    Forall2 (fun arg s => exists Ta, static_type arg = Ok Ta /\ s = name Ta)
            args received /\
    check_types (MethodCall r m args) =
      Raise (JavaTypeError
               (msg_method_mismatch T m
                  (map name (argument_types method)) received)).
Proof.
  intros Hargs Hr Hnull Hobj Hm Hlen Hnot.
  destruct (received_arguments_returns args (checked_have_static_type args Hargs))
    as (received & Hrec & Hall).
  exists received. split; [exact Hall|].
  pose proof (typecheck_arguments_false args _ Hargs Hlen Hnot) as Hfalse.
  apply for_each_Ok in Hargs.
  rewrite check_types_MethodCall, Hargs, Hr. simpl.
  destruct (ty_eq_dec T null); [contradiction|].
  rewrite Hobj, Hm. simpl.
  apply Nat.eqb_eq in Hlen. rewrite Hlen. simpl.
  rewrite Hfalse. simpl. rewrite Hrec. reflexivity.
Qed.

(** X4: The same for a [ConstructorCall]: the [JavaTypeError] "... constructor
    expects arguments of type (...), but got (...)". *)
Theorem constructor_argument_mismatch T args ctor :
  Forall (fun arg => check_types arg = Ok tt) args ->
  is_subtype_of T object = true ->
  constructor T = Ok ctor ->
  length args = length (constructor_argument_types ctor) ->
  ~ Forall2 compatible_spec args (constructor_argument_types ctor) ->
  exists received,
    Forall2 (fun arg s => exists Ta, static_type arg = Ok Ta /\ s = name Ta)
            args received /\
    check_types (ConstructorCall T args) =
      Raise (JavaTypeError
               (msg_constructor_mismatch T
                  (map name (constructor_argument_types ctor)) received)).
Proof.
  intros Hargs Hobj Hc Hlen Hnot.
  destruct (received_arguments_returns args (checked_have_static_type args Hargs))
    as (received & Hrec & Hall).
  exists received. split; [exact Hall|].
  pose proof (typecheck_arguments_false args _ Hargs Hlen Hnot) as Hfalse.
  apply for_each_Ok in Hargs.
  rewrite check_types_ConstructorCall, Hargs. simpl.
  rewrite Hobj, Hc. simpl.
  apply Nat.eqb_eq in Hlen. rewrite Hlen. simpl.
  rewrite Hfalse. simpl. rewrite Hrec. reflexivity.
Qed.

(** ** Failures that are passed on *)

(** X5: Once the arguments have passed their own checks, an exception raised
    by [static_type] of the receiver, by [method_named] on a receiver type
    of the object category, or by the [constructor] of an instantiated type
    of the object category leaves [check_types] unchanged. *)
Theorem lookup_failures_propagate :
  (forall r m args err,
      Forall (fun arg => check_types arg = Ok tt) args ->
      static_type r = Raise err ->
      check_types (MethodCall r m args) = Raise err) /\
  (forall r m args T err,
      Forall (fun arg => check_types arg = Ok tt) args ->
      static_type r = Ok T ->
      T <> null ->
      is_subtype_of T object = true ->
      method_named T m = Raise err ->
      check_types (MethodCall r m args) = Raise err) /\
  (forall T args err,
      Forall (fun arg => check_types arg = Ok tt) args ->
      is_subtype_of T object = true ->
      constructor T = Raise err ->
      check_types (ConstructorCall T args) = Raise err).
Proof.
  split; [|split].
  - intros r m args err Hargs Hr. apply for_each_Ok in Hargs.
    rewrite check_types_MethodCall, Hargs, Hr. reflexivity.
  - intros r m args T err Hargs Hr Hnull Hobj Hm. apply for_each_Ok in Hargs.
    rewrite check_types_MethodCall, Hargs, Hr. simpl.
    destruct (ty_eq_dec T null); [contradiction|].
    rewrite Hobj, Hm. reflexivity.
  - intros T args err Hargs Hobj Hc. apply for_each_Ok in Hargs.
    rewrite check_types_ConstructorCall, Hargs. simpl.
    rewrite Hobj, Hc. reflexivity.
Qed.

(** ** The compatibility routine, position by position *)

(** X6: The routine on two concatenations whose first parts have the same
    length: the second parts are judged only when the first parts are
    compatible. *)
Theorem typecheck_arguments_app args1 : forall types1 args2 types2,
  length args1 = length types1 ->
  typecheck_arguments_function_call (args1 ++ args2)%list (types1 ++ types2)%list =
  (ok <- typecheck_arguments_function_call args1 types1 ;;
   if ok then typecheck_arguments_function_call args2 types2 else Ok false).
Proof.
  induction args1 as [|arg args1 IH]; intros [|type types1] args2 types2 Hlen;
    simpl in Hlen; try discriminate.
  - simpl. destruct (typecheck_arguments_function_call args2 types2); reflexivity.
  - injection Hlen as Hlen.
    change ((arg :: args1) ++ args2)%list with (arg :: (args1 ++ args2))%list.
    change ((type :: types1) ++ types2)%list with (type :: (types1 ++ types2))%list.
    rewrite !typecheck_arguments_cons.
    destruct (static_type arg) as [T|err]; simpl; [|reflexivity].
    destruct (position_ok T type); [|reflexivity].
    apply IH. exact Hlen.
Qed.

Lemma typecheck_arguments_after_compatible before tbefore rest trest :
  Forall2 compatible_spec before tbefore ->
  typecheck_arguments_function_call (before ++ rest)%list (tbefore ++ trest)%list =
  typecheck_arguments_function_call rest trest.
Proof.
  intros Hb. induction Hb as [|arg type before tbefore Hc _ IH]; [reflexivity|].
  change ((arg :: before) ++ rest)%list with (arg :: (before ++ rest))%list.
  change ((type :: tbefore) ++ trest)%list with (type :: (tbefore ++ trest))%list.
  rewrite typecheck_arguments_cons.
  destruct (compatible_spec_has_static_type _ _ Hc) as [T Hs].
  rewrite Hs. simpl.
  apply (compatible_spec_position_ok arg type T Hs) in Hc. rewrite Hc.
  exact IH.
Qed.

(** X7: The routine stops at the first position that is not compatible and
    returns false, whatever the arguments and the expected types after
    that position. *)
Theorem typecheck_arguments_first_mismatch
    before arg after tbefore type tafter T :
  Forall2 compatible_spec before tbefore ->
  static_type arg = Ok T ->
  ~ compatible_spec arg type ->
  typecheck_arguments_function_call
    (before ++ arg :: after)%list (tbefore ++ type :: tafter)%list = Ok false.
Proof.
  intros Hb Hs Hnot.
  rewrite (typecheck_arguments_after_compatible _ _ _ _ Hb).
  rewrite typecheck_arguments_cons, Hs. simpl.
  destruct (position_ok T type) eqn:Hp; [|reflexivity].
  exfalso. apply Hnot. apply (compatible_spec_position_ok arg type T Hs). exact Hp.
Qed.

(** X8: When the positions before it are compatible, an argument whose
    [static_type] raises makes the routine raise the same exception. *)
Theorem typecheck_arguments_raises
    before arg after tbefore type tafter err :
  Forall2 compatible_spec before tbefore ->
  static_type arg = Raise err ->
  typecheck_arguments_function_call
    (before ++ arg :: after)%list (tbefore ++ type :: tafter)%list = Raise err.
Proof.
  intros Hb Hs.
  rewrite (typecheck_arguments_after_compatible _ _ _ _ Hb).
  rewrite typecheck_arguments_cons, Hs. reflexivity.
Qed.

(** X9: Inside [check_types] the routine and the list of received type names
    are computed on arguments that have passed their own check; there
    neither of them raises, for any sequence of expected types, and the
    list has one name for each argument. *)
Theorem after_the_argument_loop args types :
  Forall (fun arg => check_types arg = Ok tt) args ->
  (exists b, typecheck_arguments_function_call args types = Ok b) /\
  (exists received,
      received_arguments args = Ok received /\
      length received = length args).
Proof.
  intros Hargs. split.
  - apply typecheck_arguments_of_checked. exact Hargs.
  - destruct (received_arguments_returns args (checked_have_static_type args Hargs))
      as (received & Hrec & Hall).
    exists received. split; [exact Hrec|].
    symmetry. apply (Forall2_same_length _ _ _ Hall).
Qed.

(** ** Where the exceptions come from *)

Lemma static_type_Raise_from_model e err :
  static_type e = Raise err -> exists T m, method_named T m = Raise err.
Proof.
  induction e as [x T|v T| |r IH m args|T args]; simpl; intros H;
    try discriminate.
  destruct (static_type r) as [Tr|err'] eqn:Hr; simpl in H.
  - destruct (method_named Tr m) as [method|err''] eqn:Hm; simpl in H;
      [discriminate|].
    injection H as ->. exists Tr, m. exact Hm.
  - apply IH. exact H.
Qed.

Lemma typecheck_arguments_Raise args : forall types err,
  typecheck_arguments_function_call args types = Raise err ->
  exists arg, In arg args /\ static_type arg = Raise err.
Proof.
  induction args as [|arg args IH]; intros [|type types] err H;
    try discriminate.
  rewrite typecheck_arguments_cons in H.
  destruct (static_type arg) as [T|err'] eqn:Hs; simpl in H.
  - destruct (position_ok T type); [|discriminate].
    destruct (IH types err H) as (a & Hin & Ha).
    exists a. split; [right; exact Hin|exact Ha].
  - injection H as ->. exists arg. split; [left; reflexivity|exact Hs].
Qed.

Lemma received_arguments_Raise args err :
  received_arguments args = Raise err ->
  exists arg, In arg args /\ static_type arg = Raise err.
Proof.
  unfold received_arguments.
  induction args as [|arg args IH]; simpl; intros H; [discriminate|].
  destruct (static_type arg) as [T|err'] eqn:Hs; simpl in H.
  - destruct (comprehension
                (fun receivedArg => T0 <- static_type receivedArg;; Ok (name T0))
                args) as [received|err''] eqn:Hrest; simpl in H; [discriminate|].
    injection H as ->. destruct (IH eq_refl) as (a & Hin & Ha).
    exists a. split; [right; exact Hin|exact Ha].
  - injection H as ->. exists arg. split; [left; reflexivity|exact Hs].
Qed.

Lemma check_types_Raise_cases e : forall err,
  check_types e = Raise err ->
  (exists m, err = NoSuchMethod (msg_null_receiver m null)) \/
  (exists msg, err = JavaTypeError msg) \/
  raised_by_model err.
Proof.
  induction e as [x T|v T| |r m args _ IHargs|T args IHargs]
    using Expression_tree_ind; intros err H; try discriminate.
  - rewrite check_types_MethodCall in H.
    destruct (for_each check_types args) as [[]|err'] eqn:Hargs; simpl in H.
    2:{ injection H as ->.
        destruct (for_each_Raise _ _ _ Hargs) as (before & a & after & -> & _ & Ha).
        rewrite Forall_forall in IHargs.
        apply (IHargs a); [|exact Ha].
        apply in_or_app. right. left. reflexivity. }
    destruct (static_type r) as [T|err'] eqn:Hr; simpl in H.
    2:{ injection H as ->. right. right. left.
        apply (static_type_Raise_from_model r). exact Hr. }
    destruct (ty_eq_dec T null) as [->|Hnull].
    { injection H as <-. left. exists m. reflexivity. }
    destruct (is_subtype_of T object).
    2:{ injection H as <-. right. left. eexists. reflexivity. }
    destruct (method_named T m) as [method|err'] eqn:Hm; simpl in H.
    2:{ injection H as ->. right. right. left. exists T, m. exact Hm. }
    destruct (negb (length args =? length (argument_types method))%nat).
    { injection H as <-. right. left. eexists. reflexivity. }
    destruct (typecheck_arguments_function_call args (argument_types method))
      as [[|]|err'] eqn:Hok; simpl in H.
    + discriminate.
    + destruct (received_arguments args) as [received|err'] eqn:Hrec; simpl in H.
      * injection H as <-. right. left. eexists. reflexivity.
      * injection H as ->. right. right. left.
        destruct (received_arguments_Raise _ _ Hrec) as (a & _ & Ha).
        apply (static_type_Raise_from_model a). exact Ha.
    + injection H as ->. right. right. left.
      destruct (typecheck_arguments_Raise _ _ _ Hok) as (a & _ & Ha).
      apply (static_type_Raise_from_model a). exact Ha.
  - rewrite check_types_ConstructorCall in H.
    destruct (for_each check_types args) as [[]|err'] eqn:Hargs; simpl in H.
    2:{ injection H as ->.
        destruct (for_each_Raise _ _ _ Hargs) as (before & a & after & -> & _ & Ha).
        rewrite Forall_forall in IHargs.
        apply (IHargs a); [|exact Ha].
        apply in_or_app. right. left. reflexivity. }
    destruct (is_subtype_of T object); simpl in H.
    2:{ injection H as <-. right. left. eexists. reflexivity. }
    destruct (constructor T) as [ctor|err'] eqn:Hc; simpl in H.
    2:{ injection H as ->. right. right. right. exists T. exact Hc. }
    destruct (negb (length args =? length (constructor_argument_types ctor))%nat).
    { injection H as <-. right. left. eexists. reflexivity. }
    destruct (typecheck_arguments_function_call args (constructor_argument_types ctor))
      as [[|]|err'] eqn:Hok; simpl in H.
    + discriminate.
    + destruct (received_arguments args) as [received|err'] eqn:Hrec; simpl in H.
      * injection H as <-. right. left. eexists. reflexivity.
      * injection H as ->. right. right. left.
        destruct (received_arguments_Raise _ _ Hrec) as (a & _ & Ha).
        apply (static_type_Raise_from_model a). exact Ha.
    + injection H as ->. right. right. left.
      destruct (typecheck_arguments_Raise _ _ _ Hok) as (a & _ & Ha).
      apply (static_type_Raise_from_model a). exact Ha.
Qed.

(** X10: The two operations raise little of their own.  An exception raised by
    [static_type] was raised by [method_named]; an exception raised by
    [check_types], anywhere in the tree, is the [NoSuchMethod] for a
    receiver of type [Type.null], a [JavaTypeError], or an exception that
    [method_named] or [constructor] of the type model raised. *)
Theorem exceptions_of_an_expression e err :
  (static_type e = Raise err -> exists T m, method_named T m = Raise err) /\
  (check_types e = Raise err ->
   (exists m, err = NoSuchMethod (msg_null_receiver m null)) \/
   (exists msg, err = JavaTypeError msg) \/
   raised_by_model err).
Proof.
  split.
  - apply static_type_Raise_from_model.
  - apply check_types_Raise_cases.
Qed.

(** ** Expressions deep in the arguments *)

Lemma check_types_fill_Ok (f : Frame Ty) e :
  check_types (fill f e) = Ok tt ->
  Forall (fun a => check_types a = Ok tt) (left_siblings f) /\
  check_types e = Ok tt.
Proof.
  intros H.
  assert (Hall : exists before after,
             left_siblings f = before /\
             Forall (fun a => check_types a = Ok tt) (before ++ e :: after)%list).
  { destruct f as [r m before after|T before after]; simpl in H.
    - destruct (check_types_MethodCall_Ok _ _ _ H) as (_ & _ & Hargs & _).
      exists before, after. split; [reflexivity|exact Hargs].
    - destruct (check_types_ConstructorCall_Ok _ _ H) as (_ & Hargs & _).
      exists before, after. split; [reflexivity|exact Hargs]. }
  destruct Hall as (before & after & -> & Hall).
  apply Forall_app in Hall. destruct Hall as [Hb Hrest].
  split; [exact Hb|]. inversion Hrest; assumption.
Qed.

(** X11: An expression that fails its own check, at any depth below a call
    along argument positions, makes the whole tree fail with the same
    exception, provided the arguments to its left, at each level, pass
    theirs: the first failure in depth-first, left-to-right order over the
    arguments is the one reported. *)
Theorem check_types_plug_Raise (path : list (Frame Ty)) e err :
  Forall (fun f => Forall (fun a => check_types a = Ok tt) (left_siblings f))
         path ->
  check_types e = Raise err ->
  check_types (plug path e) = Raise err.
Proof.
  intros Hpath He. induction Hpath as [|f path Hf _ IH]; simpl; [exact He|].
  destruct f as [r m before after|T before after]; simpl in *.
  - apply (call_first_failing_argument r m object before (plug path e) after err Hf IH).
  - apply (call_first_failing_argument e "" T before (plug path e) after err Hf IH).
Qed.

(** X12: When the check of a tree returns normally, every expression below it
    along argument positions has passed its own check and has a static
    type. *)
Theorem check_types_plug_Ok (path : list (Frame Ty)) e :
  check_types (plug path e) = Ok tt ->
  check_types e = Ok tt /\ exists T, static_type e = Ok T.
Proof.
  intros H.
  assert (He : check_types e = Ok tt).
  { revert H. induction path as [|f path IH]; simpl; intros H; [exact H|].
    apply IH. apply (check_types_fill_Ok f). exact H. }
  split; [exact He|]. apply check_types_static_type. exact He.
Qed.

(** ** Names and texts are not read *)

Lemma static_type_without_texts e :
  static_type (without_texts e) = static_type e.
Proof.
  induction e as [x T|v T| |r IH m args|T args]; simpl; try reflexivity.
  rewrite IH. reflexivity.
Qed.

Lemma typecheck_arguments_without_texts args : forall types,
  typecheck_arguments_function_call (map without_texts args) types =
  typecheck_arguments_function_call args types.
Proof.
  induction args as [|arg args IH]; intros [|type types]; try reflexivity.
  simpl map. rewrite !typecheck_arguments_cons, static_type_without_texts.
  destruct (static_type arg) as [T|err]; simpl; [|reflexivity].
  rewrite IH. reflexivity.
Qed.

Lemma received_arguments_without_texts args :
  received_arguments (map without_texts args) = received_arguments args.
Proof.
  unfold received_arguments.
  induction args as [|arg args IH]; simpl; [reflexivity|].
  rewrite static_type_without_texts, IH. reflexivity.
Qed.

Lemma for_each_map {A B : Type} (f : B -> Result unit) (g : A -> B) (xs : list A) :
  for_each f (map g xs) = for_each (fun x => f (g x)) xs.
Proof.
  induction xs as [|x xs IH]; simpl; [reflexivity|].
  rewrite IH. reflexivity.
Qed.

(** X13: Neither operation reads the name of a variable or the text of a
    literal, and a [Literal] of type [Type.null] stands for the
    [NullLiteral]: blanking the texts and writing every [NullLiteral] as
    such a [Literal], everywhere in the tree, changes neither the static
    type nor the outcome of the check. *)
Theorem without_texts_same_outcome e :
  static_type (without_texts e) = static_type e /\
  check_types (without_texts e) = check_types e.
Proof.
  split; [apply static_type_without_texts|].
  induction e as [x T|v T| |r m args _ IHargs|T args IHargs]
    using Expression_tree_ind; try reflexivity.
  - simpl without_texts. rewrite !check_types_MethodCall.
    rewrite for_each_map, (for_each_ext _ _ args IHargs).
    rewrite static_type_without_texts, length_map.
    destruct (for_each check_types args) as [[]|err]; simpl; [|reflexivity].
    destruct (static_type r) as [T|err]; simpl; [|reflexivity].
    destruct (ty_eq_dec T null); [reflexivity|].
    destruct (is_subtype_of T object); [|reflexivity].
    destruct (method_named T m) as [method|err]; simpl; [|reflexivity].
    rewrite typecheck_arguments_without_texts, received_arguments_without_texts.
    reflexivity.
  - simpl without_texts. rewrite !check_types_ConstructorCall.
    rewrite for_each_map, (for_each_ext _ _ args IHargs), length_map.
    destruct (for_each check_types args) as [[]|err]; simpl; [|reflexivity].
    destruct (is_subtype_of T object); simpl; [|reflexivity].
    destruct (constructor T) as [ctor|err]; simpl; [|reflexivity].
    rewrite typecheck_arguments_without_texts, received_arguments_without_texts.
    reflexivity.
Qed.

(** ** The helper [names] *)

(** X14: The two lists of an "expects arguments of type ..." message are
    written as [names] writes a list of types: the message of a method is
    the receiver type, the method, and the two lists in parentheses, and
    likewise for a constructor. *)
Theorem mismatch_messages_with_names T m (expected received : list Ty) :
  msg_method_mismatch T m (map name expected) (map name received) =
    name T ++ "." ++ m ++ "() expects arguments of type " ++ names expected
      ++ ", but got " ++ names received /\
  msg_constructor_mismatch T (map name expected) (map name received) =
    name T ++ " constructor expects arguments of type " ++ names expected
      ++ ", but got " ++ names received.
Proof.
  unfold msg_method_mismatch, msg_constructor_mismatch, names.
  split; rewrite !append_assoc; reflexivity.
Qed.

End Outcomes.

(** * The further properties on the sample model *)

Section OutcomesOnTheSampleModel.

Import Sample.

(** [foo.bar(1.0)]: one argument of type [double] for a parameter of type
    [int]. *)
Lemma method_argument_mismatch_witness :
  exists received,
    Forall2 (fun arg s => exists Ta, static_type arg = Ok Ta /\ s = name Ta)
            [Literal "1.0" Tdouble] received /\
    check_types (MethodCall foo "bar" [Literal "1.0" Tdouble]) =
      Raise (JavaTypeError (msg_method_mismatch Tfoo "bar" ["int"] received)).
Proof.
  assert (Hne : Tfoo <> null) by discriminate.
  assert (Hnot : ~ Forall2 compatible_spec [Literal "1.0" Tdouble] [Tint]).
  { intros H. apply Forall2_cons_iff in H. destruct H as [Hc _]. revert Hc.
    apply (position_not_ok_incompatible _ Tint Tdouble); reflexivity. }
  assert (Hargs : Forall (fun arg => check_types arg = Ok tt)
                         [Literal "1.0" Tdouble]) by (repeat constructor).
  exact (method_argument_mismatch foo "bar" [Literal "1.0" Tdouble] Tfoo
           {| argument_types := [Tint]; return_type := Tvoid |}
           Hargs eq_refl Hne eq_refl eq_refl eq_refl Hnot).
Defined.

(** [new String(1)]: an [int] for a parameter of type [Object]. *)
Lemma constructor_argument_mismatch_witness :
  exists received,
    Forall2 (fun arg s => exists Ta, static_type arg = Ok Ta /\ s = name Ta)
            [one] received /\
    check_types (ConstructorCall Tstring [one]) =
      Raise (JavaTypeError (msg_constructor_mismatch Tstring ["Object"] received)).
Proof.
  assert (Hnot : ~ Forall2 compatible_spec [one] [Tobject]).
  { intros H. apply Forall2_cons_iff in H. destruct H as [Hc _]. revert Hc.
    apply (position_not_ok_incompatible _ Tobject Tint); reflexivity. }
  assert (Hargs : Forall (fun arg => check_types arg = Ok tt) [one])
    by (repeat constructor).
  exact (constructor_argument_mismatch Tstring [one]
           {| constructor_argument_types := [Tobject] |}
           Hargs eq_refl eq_refl eq_refl Hnot).
Defined.

(** [foo.baz().bar()], [foo.baz()], and [new Foo()] in a model where no
    type has a constructor. *)
Lemma lookup_failures_propagate_witness :
  check_types (MethodCall (MethodCall foo "baz" []) "bar" []) =
    Raise (NoSuchMethod "Foo has no method named baz") /\
  check_types (MethodCall foo "baz" []) =
    Raise (NoSuchMethod "Foo has no method named baz") /\
  @check_types JavaType
    (with_constructor model (fun _ => Raise (ResolutionFailure "abstract")))
    (ConstructorCall Tfoo []) = Raise (ResolutionFailure "abstract").
Proof.
  assert (Hne : Tfoo <> null) by discriminate.
  split; [|split].
  - exact (proj1 (@lookup_failures_propagate JavaType model)
             (MethodCall foo "baz" []) "bar" [] _ (Forall_nil _) eq_refl).
  - exact (proj1 (proj2 (@lookup_failures_propagate JavaType model))
             foo "baz" [] Tfoo _ (Forall_nil _) eq_refl Hne eq_refl eq_refl).
  - exact (proj2 (proj2 (@lookup_failures_propagate JavaType
                           (with_constructor model
                              (fun _ => Raise (ResolutionFailure "abstract")))))
             Tfoo [] _ (Forall_nil _) eq_refl eq_refl).
Defined.

(** [(1, null)] against [(int, Object)], split after the first position. *)
Lemma typecheck_arguments_app_witness :
  typecheck_arguments_function_call ([one] ++ [null_literal])%list
                                    ([Tint] ++ [Tobject])%list =
  (ok <- typecheck_arguments_function_call [one] [Tint] ;;
   if ok then typecheck_arguments_function_call [null_literal] [Tobject]
   else Ok false).
Proof.
  apply (typecheck_arguments_app [one] [Tint] [null_literal] [Tobject]).
  reflexivity.
Defined.

(** [(1, 1.0, foo.baz())] against [(int, int, int)]: the routine answers
    false at the second position and never asks for the static type of
    the third argument, which would raise. *)
Lemma typecheck_arguments_first_mismatch_witness :
  static_type (MethodCall foo "baz" []) =
    Raise (NoSuchMethod "Foo has no method named baz") /\
  typecheck_arguments_function_call
    ([one] ++ Literal "1.0" Tdouble :: [MethodCall foo "baz" []])%list
    ([Tint] ++ Tint :: [Tint])%list = Ok false.
Proof.
  split; [reflexivity|].
  apply (typecheck_arguments_first_mismatch
           [one] (Literal "1.0" Tdouble) [MethodCall foo "baz" []]
           [Tint] Tint [Tint] Tdouble).
  - constructor; [|constructor].
    exists Tint. split; [reflexivity|left; reflexivity].
  - reflexivity.
  - apply (position_not_ok_incompatible _ Tint Tdouble); reflexivity.
Defined.

(** [(1, foo.baz())] against [(int, int)]. *)
Lemma typecheck_arguments_raises_witness :
  typecheck_arguments_function_call
    ([one] ++ MethodCall foo "baz" [] :: [])%list ([Tint] ++ Tint :: [])%list =
  Raise (NoSuchMethod "Foo has no method named baz").
Proof.
  apply (typecheck_arguments_raises
           [one] (MethodCall foo "baz" []) [] [Tint] Tint []).
  - constructor; [|constructor].
    exists Tint. split; [reflexivity|left; reflexivity].
  - reflexivity.
Defined.

(** The arguments [(1, null)], which pass their checks, against
    [(Object)]. *)
Lemma after_the_argument_loop_witness :
  (exists b, typecheck_arguments_function_call [one; null_literal] [Tobject]
             = Ok b) /\
  (exists received,
      received_arguments [one; null_literal] = Ok received /\
      length received = length [one; null_literal]).
Proof.
  apply (after_the_argument_loop [one; null_literal] [Tobject]).
  repeat constructor.
Defined.

(** [null.foo()] and [foo.baz().bar()]. *)
Lemma exceptions_of_an_expression_witness :
  ((exists m, NoSuchMethod "Cannot invoke method foo() on null" =
              NoSuchMethod (msg_null_receiver m null)) \/
   (exists msg, NoSuchMethod "Cannot invoke method foo() on null" =
                JavaTypeError msg) \/
   raised_by_model (NoSuchMethod "Cannot invoke method foo() on null")) /\
  (exists T m,
      method_named T m = Raise (NoSuchMethod "Foo has no method named baz")).
Proof.
  split.
  - exact (proj2 (exceptions_of_an_expression
                    (MethodCall null_literal "foo" []) _) eq_refl).
  - exact (proj1 (exceptions_of_an_expression
                    (MethodCall (MethodCall foo "baz" []) "bar" []) _) eq_refl).
Defined.

(** [foo.bar(1, new String(new int()), new Foo(1))]: the exception is the
    one of [new int()], two levels down; the arity of [bar] and the failing
    argument to the right are not reached. *)
Lemma check_types_plug_Raise_witness :
  check_types
    (MethodCall foo "bar"
       [one; ConstructorCall Tstring [new_int]; new_Foo_1]) =
  Raise (JavaTypeError "Type int is not instantiable").
Proof.
  apply (check_types_plug_Raise
           [InMethodCall foo "bar" [one] [new_Foo_1];
            InConstructorCall Tstring [] []] new_int).
  - repeat constructor.
  - reflexivity.
Defined.

(** [foo.equals(new String(null))] passes, hence so does [null] in it. *)
Lemma check_types_plug_Ok_witness :
  check_types null_literal = Ok tt /\
  exists T, static_type null_literal = Ok T.
Proof.
  apply (check_types_plug_Ok
           [InMethodCall foo "equals" [] []; InConstructorCall Tstring [] []]
           null_literal).
  reflexivity.
Defined.

End OutcomesOnTheSampleModel.
